(** * The Cloud Storage upload handler of [main.py]

    A shallow embedding of [process_file] and the properties of its
    log output, its failures and its effects. *)

From stdpp Require Import gmap strings list pretty.

Local Open Scope string_scope.
Local Open Scope list_scope.

(** ** Python values held by a notification

    The event payload is decoded JSON.  Floats, arrays and objects are
    carried by the text [str()] yields for them ([VOther]), which is all
    that an f-string placeholder observes. *)
Inductive value :=
| VNone
| VBool (b : bool)
| VInt (z : Z)
| VStr (s : string)
| VOther (text : string).

(** [format(v, "")], what [f"{v}"] interpolates. *)
Definition py_str (v : value) : string :=
  match v with
  | VNone => "None"
  | VBool true => "True"
  | VBool false => "False"
  | VInt z => pretty z
  | VStr s => s
  | VOther text => text
  end.

(** ** Exceptions *)
Inductive exn :=
| KeyError (key : string)
| OSError (errno : Z) (strerror : string)
| KeyboardInterrupt.

(** [isinstance(e, Exception)]: what [except Exception] catches. *)
Definition is_Exception (e : exn) : bool :=
  match e with
  | KeyError _ | OSError _ _ => true
  | KeyboardInterrupt => false
  end.

(** [str(e)].  A [KeyError] shows the repr of its key, which for the
    plain identifiers looked up here is the key between single quotes. *)
Definition exn_str (e : exn) : string :=
  match e with
  | KeyError key => "'" +:+ key +:+ "'"
  | OSError errno strerror => "[Errno " +:+ pretty errno +:+ "] " +:+ strerror
  | KeyboardInterrupt => ""
  end.

(** ** The world a call runs in

    [stdout] holds the text of every completed [print] call, oldest first
    ([print] itself adds the line terminator; a text with a newline in it
    is one entry).  [faults] scripts the outcome of the coming [print]
    calls: [None] is a call that completes, [Some e] one that raises [e]
    and adds no entry; once the script is used up every call completes.
    What the interpreter may keep in a buffer after a failed call is not
    part of the world.  [persisted] stands for everything kept outside
    the process: files, bucket objects, database rows. *)
Record world := World {
  stdout : list string;
  faults : list (option exn);
  persisted : gmap string string
}.

Inductive outcome (A : Type) :=
| Normal (a : A)
| Raised (e : exn).
Arguments Normal {A} a.
Arguments Raised {A} e.

(** State passing with exceptions; effects made before a raise stay. *)
Definition Py (A : Type) : Type := world -> outcome A * world.

Definition ret {A} (a : A) : Py A := fun w => (Normal a, w).

Definition raise {A} (e : exn) : Py A := fun w => (Raised e, w).

Definition bind {A B} (k : A -> Py B) (m : Py A) : Py B :=
  fun w =>
    match m w with
    | (Normal a, w') => k a w'
    | (Raised e, w') => (Raised e, w')
    end.

#[export] Instance Py_ret : MRet Py := @ret.
#[export] Instance Py_bind : MBind Py := @bind.

(** [try: body / except Exception as e: handler e]. *)
Definition try_except {A} (body : Py A) (handler : exn -> Py A) : Py A :=
  fun w =>
    match body w with
    | (Normal a, w') => (Normal a, w')
    | (Raised e, w') => if is_Exception e then handler e w' else (Raised e, w')
    end.

(** [print(text)] *)
Definition print (text : string) : Py unit :=
  fun w =>
    match faults w with
    | Some e :: script => (Raised e, World (stdout w) script (persisted w))
    | None :: script => (Normal tt, World (stdout w ++ [text]) script (persisted w))
    | [] => (Normal tt, World (stdout w ++ [text]) [] (persisted w))
    end.

(** ** The event *)
Record CloudEvent := { data : gmap string value }.

(** [d[key]] *)
Definition getitem (d : gmap string value) (key : string) : Py value :=
  match d !! key with
  | Some v => ret v
  | None => raise (KeyError key)
  end.

(** [d.get(key, dflt)] *)
Definition get (d : gmap string value) (key : string) (dflt : value) : value :=
  match d !! key with
  | Some v => v
  | None => dflt
  end.

(** ** The handler *)
Definition process_file (cloud_event : CloudEvent) : Py unit :=
  let data := data cloud_event in
  bucket_name ← getitem data "bucket";
  file_name ← getitem data "name";
  let content_type := get data "contentType" (VStr "unknown") in
  let size := get data "size" (VInt 0) in
  let time_created := get data "timeCreated" VNone in
  print "Processing file upload:" ;;
  print ("  Bucket: " +:+ py_str bucket_name) ;;
  print ("  File: " +:+ py_str file_name) ;;
  print ("  Content Type: " +:+ py_str content_type) ;;
  print ("  Size: " +:+ py_str size +:+ " bytes") ;;
  print ("  Created: " +:+ py_str time_created) ;;
  try_except
    (print ("Successfully processed file: " +:+ py_str file_name))
    (fun e =>
       print ("Error processing file " +:+ py_str file_name +:+ ": " +:+ exn_str e) ;;
       raise e).

Definition scenario_A : CloudEvent :=
  {| data := <["bucket" := VStr "uploads"]>
             (<["name" := VStr "a.txt"]>
             (<["contentType" := VStr "text/plain"]>
             (<["size" := VInt 120]>
             (<["timeCreated" := VStr "2024-01-01T00:00:00Z"]> ∅)))) |}.

(** A world whose output stream accepts every write. *)
Definition reliable (out : list string) (store : gmap string string) : world :=
  World out [] store.

Definition boot : world := reliable [] ∅.

(** The texts of the [print] calls completed in a run from [w] to [w']. *)
Definition emitted (w w' : world) : list string :=
  drop (length (stdout w)) (stdout w').

(** The text of the log lines. *)
Definition summary_lines (d : gmap string value) (b n : value) : list string :=
  [ "Processing file upload:";
    "  Bucket: " +:+ py_str b;
    "  File: " +:+ py_str n;
    "  Content Type: " +:+ py_str (get d "contentType" (VStr "unknown"));
    "  Size: " +:+ py_str (get d "size" (VInt 0)) +:+ " bytes";
    "  Created: " +:+ py_str (get d "timeCreated" VNone) ].

Definition success_line (n : value) : string :=
  "Successfully processed file: " +:+ py_str n.

Definition error_line (n : value) (e : exn) : string :=
  "Error processing file " +:+ py_str n +:+ ": " +:+ exn_str e.

(** ** Scenarios and predicates *)

Definition scenario_C : CloudEvent :=
  {| data := <["bucket" := VStr "uploads"]> ∅ |}.

Definition scenario_B : CloudEvent :=
  {| data := <["bucket" := VStr "uploads"]> (<["name" := VStr "b.bin"]> ∅) |}.

Definition null_size : CloudEvent :=
  {| data := <["bucket" := VStr "uploads"]>
             (<["name" := VStr "c.bin"]>
             (<["size" := VNone]> ∅)) |}.

Definition null_content_type : CloudEvent :=
  {| data := <["bucket" := VStr "uploads"]>
             (<["name" := VStr "c.bin"]>
             (<["contentType" := VNone]> ∅)) |}.

Definition scenario_A_extra : CloudEvent :=
  {| data := <["generation" := VStr "1712345678"]>
             (<["metageneration" := VInt 1]> (data scenario_A)) |}.

Definition broken_pipe : exn := OSError 32 "Broken pipe".

(** The reading of "every error after extraction is logged": whenever a
    call on a notification holding both required keys raises, the last
    line it wrote is the error line of that exception. *)
Definition every_late_error_is_logged : Prop :=
  ∀ ev b n w e w',
    data ev !! "bucket" = Some b →
    data ev !! "name" = Some n →
    process_file ev w = (Raised e, w') →
    last (emitted w w') = Some (error_line n e).

(** A computation that leaves the persisted state alone and only adds
    to the end of the output stream. *)
Definition writes_only {A} (m : Py A) : Prop :=
  ∀ w, persisted (m w).2 = persisted w ∧ stdout w `prefix_of` stdout (m w).2.

(** The keys the handler reads. *)
Definition fields : list string :=
  ["bucket"; "name"; "contentType"; "size"; "timeCreated"].

Definition agree_on_fields (d1 d2 : gmap string value) : Prop :=
  Forall (λ key, d1 !! key = d2 !! key) fields.

(** ** Further scenarios *)

(** Scenario A as Cloud Storage sends it, with the size as a string. *)
Definition scenario_A_text : CloudEvent :=
  {| data := <["size" := VStr "120"]> (data scenario_A) |}.

(** Two payloads whose values under the five keys read alike: present
    under the same keys, with the same [str()] text. *)
Definition same_text (d1 d2 : gmap string value) : Prop :=
  Forall (λ key, py_str <$> d1 !! key = py_str <$> d2 !! key) fields.

(** The payload with the value each optional lookup yields written in. *)
Definition with_defaults (d : gmap string value) : gmap string value :=
  <["contentType" := get d "contentType" (VStr "unknown")]>
    (<["size" := get d "size" (VInt 0)]>
       (<["timeCreated" := get d "timeCreated" VNone]> d)).

(** The ways a call that got past both subscripts can end, as result
    and world, from [out], [script] and [store]: all seven lines and a
    normal return; an exception after the first [i] summary lines; or the
    six summary lines, the error line and an exception.  [k] counts the
    writes attempted. *)
Inductive run_shape (d : gmap string value) (b n : value)
    (out : list string) (script : list (option exn))
    (store : gmap string string) : outcome unit * world → Prop :=
| shape_done (k : nat) :
    (k ≤ 8)%nat →
    run_shape d b n out script store
      (Normal tt,
       World (out ++ summary_lines d b n ++ [success_line n])
             (drop k script) store)
| shape_cut (k : nat) e (i : nat) :
    (k ≤ 8)%nat → (i ≤ 6)%nat →
    run_shape d b n out script store
      (Raised e, World (out ++ take i (summary_lines d b n)) (drop k script) store)
| shape_logged (k : nat) e :
    (k ≤ 8)%nat → is_Exception e = true →
    run_shape d b n out script store
      (Raised e,
       World (out ++ summary_lines d b n ++ [error_line n e])
             (drop k script) store).

(** ** The handler as a tree of requests

    The same code read as a plan of what it asks of its environment:
    each node is one request, and the subtree taken depends on the
    reply.  Besides writing to the output stream the requests cover what
    the comments of [main.py] sketch and what a handler could do to
    state kept outside the process, whether reached as a file, over the
    network or in a database: fetch an object, store one, erase one. *)
Inductive effect :=
| Emit (text : string)
| Fetch (key : string)
| Put (key content : string)
| Erase (key : string).

Inductive prog (A : Type) : Type :=
| Done (a : A)
| Fail (e : exn)
| Ask (ef : effect) (k : outcome (option string) → prog A).
Arguments Done {A} a.
Arguments Fail {A} e.
Arguments Ask {A} ef k.

Fixpoint prog_bind {A B} (k : A → prog B) (m : prog A) : prog B :=
  match m with
  | Done a => k a
  | Fail e => Fail e
  | Ask ef h => Ask ef (λ reply, prog_bind k (h reply))
  end.

#[export] Instance prog_ret : MRet prog := @Done.
#[export] Instance prog_mbind : MBind prog := @prog_bind.

Module Tree.

(** [try: body / except Exception as e: handler e] *)
Fixpoint try_except {A} (body : prog A) (handler : exn → prog A) : prog A :=
  match body with
  | Done a => Done a
  | Fail e => if is_Exception e then handler e else Fail e
  | Ask ef h => Ask ef (λ reply, try_except (h reply) handler)
  end.

(** [print(text)] *)
Definition print (text : string) : prog unit :=
  Ask (Emit text)
      (λ reply, match reply with Normal _ => Done tt | Raised e => Fail e end).

(** [d[key]] *)
Definition getitem (d : gmap string value) (key : string) : prog value :=
  match d !! key with
  | Some v => Done v
  | None => Fail (KeyError key)
  end.

(** [blob.download_as_bytes()] of the commented-out example (lines
    48-53 of [main.py]); the handler does not call it. *)
Definition download_as_bytes (key : string) : prog (option string) :=
  Ask (Fetch key)
      (λ reply, match reply with Normal c => Done c | Raised e => Fail e end).

Definition process_file (cloud_event : CloudEvent) : prog unit :=
  let data := data cloud_event in
  bucket_name ← getitem data "bucket";
  file_name ← getitem data "name";
  let content_type := get data "contentType" (VStr "unknown") in
  let size := get data "size" (VInt 0) in
  let time_created := get data "timeCreated" VNone in
  print "Processing file upload:" ;;
  print ("  Bucket: " +:+ py_str bucket_name) ;;
  print ("  File: " +:+ py_str file_name) ;;
  print ("  Content Type: " +:+ py_str content_type) ;;
  print ("  Size: " +:+ py_str size +:+ " bytes") ;;
  print ("  Created: " +:+ py_str time_created) ;;
  try_except
    (print ("Successfully processed file: " +:+ py_str file_name))
    (fun e =>
       print ("Error processing file " +:+ py_str file_name +:+ ": " +:+ exn_str e) ;;
       Fail e).

End Tree.

(** What the environment does with one request, and what it replies. *)
Definition perform (ef : effect) : Py (option string) :=
  fun w =>
    match ef with
    | Emit text =>
        match print text w with
        | (Normal _, w') => (Normal None, w')
        | (Raised e, w') => (Raised e, w')
        end
    | Fetch key => (Normal (persisted w !! key), w)
    | Put key content =>
        (Normal None,
         World (stdout w) (faults w) (<[key := content]> (persisted w)))
    | Erase key =>
        (Normal None, World (stdout w) (faults w) (delete key (persisted w)))
    end.

(** Running a tree in a world. *)
Fixpoint run {A} (m : prog A) : Py A :=
  match m with
  | Done a => ret a
  | Fail e => raise e
  | Ask ef k => fun w => let (reply, w') := perform ef w in run (k reply) w'
  end.

(** A tree none of whose requests, whatever the replies, is anything
    but a write to the output stream. *)
Inductive only_emits {A} : prog A → Prop :=
| only_emits_Done a : only_emits (Done a)
| only_emits_Fail e : only_emits (Fail e)
| only_emits_Ask text k :
    (∀ reply, only_emits (k reply)) → only_emits (Ask (Emit text) k).

(** * Properties *)

Ltac py_unfold :=
  unfold process_file, getitem, mbind, Py_bind, bind, try_except, print,
    mret, Py_ret, ret, raise, reliable.

Section Handler.
Context (ev : CloudEvent) (b n : value).
Hypothesis Hbucket : data ev !! "bucket" = Some b.
Hypothesis Hname : data ev !! "name" = Some n.

Lemma process_file_reliable out store :
  process_file ev (reliable out store)
  = (Normal tt,
     reliable (out ++ summary_lines (data ev) b n ++ [success_line n]) store).
Proof.
  py_unfold. rewrite Hbucket, Hname. cbn.
  rewrite <- !app_assoc. reflexivity.
Qed.
End Handler.

Lemma process_file_no_bucket ev w :
  data ev !! "bucket" = None →
  process_file ev w = (Raised (KeyError "bucket"), w).
Proof. intros H. py_unfold. rewrite H. reflexivity. Qed.

Lemma process_file_no_name ev b w :
  data ev !! "bucket" = Some b →
  data ev !! "name" = None →
  process_file ev w = (Raised (KeyError "name"), w).
Proof. intros Hb H. py_unfold. rewrite Hb, H. reflexivity. Qed.

Lemma process_file_missing ev w :
  data ev !! "bucket" = None ∨ data ev !! "name" = None →
  ∃ key, (key = "bucket" ∨ key = "name") ∧ data ev !! key = None ∧
         process_file ev w = (Raised (KeyError key), w).
Proof.
  intros H. destruct (data ev !! "bucket") as [b|] eqn:Hb.
  - destruct H as [H|H]; [discriminate|].
    exists "name". eauto using process_file_no_name.
  - exists "bucket". eauto using process_file_no_bucket.
Qed.

Lemma emitted_refl w : emitted w w = [].
Proof. unfold emitted. apply drop_all. Qed.

(** C1: with "bucket" and "name" present the call returns [None] after
    writing the six summary lines, the five fields in the order bucket,
    file, content type, size, created, and then the success line. *)
Theorem process_file_logs_and_returns ev b n out store :
  data ev !! "bucket" = Some b →
  data ev !! "name" = Some n →
  process_file ev (reliable out store)
  = (Normal tt,
     reliable
       (out ++
        [ "Processing file upload:";
          "  Bucket: " +:+ py_str b;
          "  File: " +:+ py_str n;
          "  Content Type: " +:+ py_str (get (data ev) "contentType" (VStr "unknown"));
          "  Size: " +:+ py_str (get (data ev) "size" (VInt 0)) +:+ " bytes";
          "  Created: " +:+ py_str (get (data ev) "timeCreated" VNone);
          "Successfully processed file: " +:+ py_str n ])
       store).
Proof. intros Hb Hn. exact (process_file_reliable ev b n Hb Hn out store). Qed.

Lemma process_file_logs_and_returns_witness :
  process_file scenario_A boot
  = (Normal tt,
     reliable
       [ "Processing file upload:"; "  Bucket: uploads"; "  File: a.txt";
         "  Content Type: text/plain"; "  Size: 120 bytes";
         "  Created: 2024-01-01T00:00:00Z";
         "Successfully processed file: a.txt" ] ∅).
Proof.
  exact (process_file_logs_and_returns scenario_A (VStr "uploads") (VStr "a.txt")
           [] ∅ eq_refl eq_refl).
Defined.

(** C2: when "bucket" or "name" is missing the call raises the
    [KeyError] of a missing key and writes no success line. *)
Theorem missing_key_raises_KeyError ev w :
  data ev !! "bucket" = None ∨ data ev !! "name" = None →
  ∃ key w',
    (key = "bucket" ∨ key = "name") ∧ data ev !! key = None ∧
    process_file ev w = (Raised (KeyError key), w') ∧
    ∀ text, "Successfully processed file: " +:+ text ∉ emitted w w'.
Proof.
  intros H. destruct (process_file_missing ev w H) as (key & Hk & Hnone & Hrun).
  exists key, w. repeat split; try done.
  intros text. rewrite emitted_refl. apply not_elem_of_nil.
Qed.

Lemma missing_key_raises_KeyError_witness :
  ∃ key w',
    (key = "bucket" ∨ key = "name") ∧ data scenario_C !! key = None ∧
    process_file scenario_C boot = (Raised (KeyError key), w') ∧
    ∀ text, "Successfully processed file: " +:+ text ∉ emitted boot w'.
Proof.
  apply (missing_key_raises_KeyError scenario_C boot). right. reflexivity.
Defined.

(** C3: scenario A writes exactly its seven lines, in order. *)
Theorem scenario_A_output out store :
  process_file scenario_A (reliable out store)
  = (Normal tt,
     reliable
       (out ++
        [ "Processing file upload:";
          "  Bucket: uploads";
          "  File: a.txt";
          "  Content Type: text/plain";
          "  Size: 120 bytes";
          "  Created: 2024-01-01T00:00:00Z";
          "Successfully processed file: a.txt" ])
       store).
Proof.
  exact (process_file_reliable scenario_A (VStr "uploads") (VStr "a.txt")
           eq_refl eq_refl out store).
Qed.

(** C4: a notification whose only keys are "bucket" and "name" is
    processed with the defaults: content type unknown, size 0, created
    None. *)
Theorem defaults_when_only_required ev out store :
  dom (data ev) = {[ "bucket"; "name" ]} →
  ∃ b n,
    data ev !! "bucket" = Some b ∧ data ev !! "name" = Some n ∧
    process_file ev (reliable out store)
    = (Normal tt,
       reliable
         (out ++
          [ "Processing file upload:";
            "  Bucket: " +:+ py_str b;
            "  File: " +:+ py_str n;
            "  Content Type: unknown";
            "  Size: 0 bytes";
            "  Created: None";
            "Successfully processed file: " +:+ py_str n ])
         store).
Proof.
  intros Hdom.
  assert (Hin : ∀ key, is_Some (data ev !! key) ↔ key = "bucket" ∨ key = "name").
  { intros key.
    rewrite <- elem_of_dom, Hdom, elem_of_union, !elem_of_singleton. done. }
  destruct (proj2 (Hin "bucket")) as [b Hb]; [by left|].
  destruct (proj2 (Hin "name")) as [n Hn]; [by right|].
  assert (Hout : ∀ key, key ≠ "bucket" → key ≠ "name" → data ev !! key = None).
  { intros key H1 H2. apply eq_None_not_Some. rewrite Hin. tauto. }
  exists b, n. split; [done|]. split; [done|].
  rewrite (process_file_reliable ev b n Hb Hn).
  unfold summary_lines, success_line, get.
  rewrite !Hout by discriminate. reflexivity.
Qed.

Lemma defaults_when_only_required_witness :
  ∃ b n,
    data scenario_B !! "bucket" = Some b ∧ data scenario_B !! "name" = Some n ∧
    process_file scenario_B boot
    = (Normal tt,
       reliable
         [ "Processing file upload:";
           "  Bucket: " +:+ py_str b;
           "  File: " +:+ py_str n;
           "  Content Type: unknown";
           "  Size: 0 bytes";
           "  Created: None";
           "Successfully processed file: " +:+ py_str n ] ∅).
Proof.
  exact (defaults_when_only_required scenario_B [] ∅ eq_refl).
Defined.

(** ** Failing writes *)

(** The header write fails: the error leaves the handler and nothing,
    in particular no error line, has been written. *)
Lemma summary_failure_is_not_logged :
  process_file scenario_A (World [] [Some broken_pipe] ∅)
  = (Raised broken_pipe, World [] [] ∅)
  ∧ ¬ every_late_error_is_logged.
Proof.
  split; [reflexivity|].
  intros H.
  specialize (H scenario_A (VStr "uploads") (VStr "a.txt")
                (World [] [Some broken_pipe] ∅) broken_pipe (World [] [] ∅)
                eq_refl eq_refl eq_refl).
  discriminate H.
Qed.

(** C5, amended: the [try] block covers the success line only.  (a) When
    that write raises an [Exception] and the next write goes through, the
    error line is written and the same exception is raised again.  (b)
    When one of the six summary writes raises, the exception leaves the
    handler with no error line.  (c) Whichever of the seven writes fails,
    the call ends in an exception: none is swallowed. *)
Theorem late_errors_propagate ev b n out store :
  data ev !! "bucket" = Some b →
  data ev !! "name" = Some n →
  (∀ e rest,
     is_Exception e = true →
     (∀ e', head rest ≠ Some (Some e')) →
     process_file ev (World out (replicate 6 None ++ Some e :: rest) store)
     = (Raised e,
        World (out ++ summary_lines (data ev) b n ++ [error_line n e])
              (tail rest) store))
  ∧ (∀ i e rest,
       i < 6 →
       process_file ev (World out (replicate i None ++ Some e :: rest) store)
       = (Raised e,
          World (out ++ take i (summary_lines (data ev) b n)) rest store))
  ∧ (∀ script i e,
       i < 7 → script !! i = Some (Some e) →
       ∃ e' w', process_file ev (World out script store) = (Raised e', w')).
Proof.
  intros Hb Hn. split; [|split].
  - intros e rest He Hrest.
    py_unfold. rewrite Hb, Hn. cbn. rewrite He.
    destruct rest as [|[e'|] rest]; cbn.
    + rewrite <- !app_assoc. reflexivity.
    + exfalso. by apply (Hrest e').
    + rewrite <- !app_assoc. reflexivity.
  - intros i e rest Hi.
    py_unfold. rewrite Hb, Hn.
    do 6 (destruct i as [|i];
          [cbn; rewrite <- ?app_assoc, ?app_nil_r; reflexivity|]).
    lia.
  - intros script i e Hi Hlook.
    py_unfold. rewrite Hb, Hn. cbn.
    do 7 (destruct script as [|[e0|] script];
          [discriminate Hlook
          | cbn; try (destruct (is_Exception e0); cbn;
                      [destruct script as [|[e1|] script]|]; cbn); eauto
          | destruct i as [|i]; [discriminate Hlook|cbn in Hlook]]).
    lia.
Qed.

Lemma late_errors_propagate_witness :
  process_file scenario_A
    (World [] [None; None; None; None; None; None; Some broken_pipe] ∅)
  = (Raised broken_pipe,
     World [ "Processing file upload:"; "  Bucket: uploads"; "  File: a.txt";
             "  Content Type: text/plain"; "  Size: 120 bytes";
             "  Created: 2024-01-01T00:00:00Z";
             "Error processing file a.txt: [Errno 32] Broken pipe" ] [] ∅).
Proof.
  destruct (late_errors_propagate scenario_A (VStr "uploads") (VStr "a.txt")
              [] ∅ eq_refl eq_refl) as [Hlogged _].
  apply (Hlogged broken_pipe []); [reflexivity|].
  intros e'. discriminate.
Defined.

(** ** Repeated and related invocations *)

(** C6: what a call writes and how it ends is fixed by the notification
    alone; a second call on the stream left by the first writes the same
    lines and ends the same way. *)
Theorem repeat_invocation_same_output ev :
  ∃ r lines, ∀ out store,
    process_file ev (reliable out store) = (r, reliable (out ++ lines) store)
    ∧ process_file ev (reliable (out ++ lines) store)
      = (r, reliable ((out ++ lines) ++ lines) store).
Proof.
  destruct (data ev !! "bucket") as [b|] eqn:Hb.
  - destruct (data ev !! "name") as [n|] eqn:Hn.
    + exists (Normal tt), (summary_lines (data ev) b n ++ [success_line n]).
      intros out store. split; apply (process_file_reliable ev b n Hb Hn).
    + exists (Raised (KeyError "name")), [].
      intros out store. rewrite !app_nil_r.
      split; apply (process_file_no_name ev b _ Hb Hn).
  - exists (Raised (KeyError "bucket")), [].
    intros out store. rewrite !app_nil_r.
    split; apply (process_file_no_bucket ev _ Hb).
Qed.

(** ** Effects *)

Lemma writes_only_print text : writes_only (print text).
Proof.
  intros [out script store]. unfold print. cbn.
  destruct script as [|[e|] script]; cbn;
    (split; [reflexivity|]); try reflexivity; by apply prefix_app_r.
Qed.

(** ** The requests of a call *)

Lemma only_emits_bind {A B} (m : prog A) (k : A → prog B) :
  only_emits m → (∀ a, only_emits (k a)) → only_emits (m ≫= k).
Proof.
  intros Hm Hk. induction Hm as [a|e|text h _ IH]; cbn.
  - apply Hk.
  - constructor.
  - constructor. exact IH.
Qed.

Lemma only_emits_try_except {A} (body : prog A) handler :
  only_emits body → (∀ e, only_emits (handler e)) →
  only_emits (Tree.try_except body handler).
Proof.
  intros Hm Hk. induction Hm as [a|e|text h _ IH]; cbn.
  - constructor.
  - destruct (is_Exception e); [apply Hk|constructor].
  - constructor. exact IH.
Qed.

Lemma only_emits_print text : only_emits (Tree.print text).
Proof. constructor. intros [u|e]; constructor. Qed.

Lemma only_emits_getitem d key : only_emits (Tree.getitem d key).
Proof. unfold Tree.getitem. destruct (d !! key); constructor. Qed.

Lemma download_is_an_access key : ¬ only_emits (Tree.download_as_bytes key).
Proof. intros H. inversion H. Qed.

Lemma fetch_then_print_is_an_access key :
  ¬ only_emits (Tree.download_as_bytes key
                ≫= λ c, Tree.print (default "" c)).
Proof. intros H. inversion H. Qed.

Lemma process_file_only_emits ev : only_emits (Tree.process_file ev).
Proof.
  unfold Tree.process_file.
  repeat first
    [ apply only_emits_bind; [|intros ?]
    | apply only_emits_try_except; [|intros ?]
    | apply only_emits_print
    | apply only_emits_getitem
    | constructor ].
Qed.

(** Running the tree is the handler. *)
Lemma run_bind {A B} (m : prog A) (k : A → prog B) w :
  run (m ≫= k) w = (run m ≫= λ a, run (k a)) w.
Proof.
  revert w. induction m as [a|e|ef h IH]; intros w; cbn; try reflexivity.
  unfold mbind, Py_bind, bind. cbn.
  destruct (perform ef w) as [reply w']. apply IH.
Qed.

Lemma run_try_except {A} (body : prog A) handler w :
  run (Tree.try_except body handler) w
  = try_except (run body) (λ e, run (handler e)) w.
Proof.
  revert w. induction body as [a|e|ef h IH]; intros w; cbn.
  - reflexivity.
  - unfold try_except. cbn. destruct (is_Exception e); reflexivity.
  - unfold try_except. cbn.
    destruct (perform ef w) as [reply w']. apply IH.
Qed.

Lemma run_print text w : run (Tree.print text) w = print text w.
Proof.
  destruct w as [out [|[e|] script] store]; reflexivity.
Qed.

Lemma run_getitem d key w : run (Tree.getitem d key) w = getitem d key w.
Proof. unfold Tree.getitem, getitem. destruct (d !! key); reflexivity. Qed.

Lemma bind_ext {A B} (m m' : Py A) (k k' : A → Py B) w :
  m w = m' w → (∀ a w', k a w' = k' a w') → (m ≫= k) w = (m' ≫= k') w.
Proof.
  intros Hm Hk. unfold mbind, Py_bind, bind. rewrite Hm.
  destruct (m' w) as [[a|e] w']; [apply Hk|reflexivity].
Qed.

Lemma try_except_ext {A} (m m' : Py A) (h h' : exn → Py A) w :
  m w = m' w → (∀ e w', h e w' = h' e w') →
  try_except m h w = try_except m' h' w.
Proof.
  intros Hm Hh. unfold try_except. rewrite Hm.
  destruct (m' w) as [[a|e] w']; [reflexivity|].
  destruct (is_Exception e); [apply Hh|reflexivity].
Qed.

Lemma run_process_file ev w : run (Tree.process_file ev) w = process_file ev w.
Proof.
  revert w. unfold Tree.process_file, process_file.
  repeat first
    [ intros ?w; rewrite run_bind; apply bind_ext; [|intros ?]
    | intros ?w; rewrite run_try_except; apply try_except_ext; [|intros ?]
    | intros ?w; apply run_print
    | intros ?w; apply run_getitem
    | apply run_print
    | apply run_getitem
    | intros ?w; reflexivity ].
Qed.

Lemma put_changes_the_store key content w :
  persisted (run (Ask (Put key content) (λ _, Done tt)) w).2 !! key
  = Some content.
Proof. cbn. apply lookup_insert_eq. Qed.

(** A tree that only writes to the output stream, run in any world,
    leaves the persisted state alone and only adds to the stream. *)
Lemma only_emits_writes_only {A} (m : prog A) :
  only_emits m → writes_only (run m).
Proof.
  intros Hm. induction Hm as [a|e|text h _ IH]; intros w.
  - split; reflexivity.
  - split; reflexivity.
  - cbn. destruct (writes_only_print text w) as [Hp Hs].
    destruct (print text w) as [[u|e] w1]; cbn in *.
    + destruct (IH (Normal None) w1) as [Hp' Hs'].
      split; [congruence|by etrans].
    + destruct (IH (Raised e) w1) as [Hp' Hs'].
      split; [congruence|by etrans].
Qed.

(** C7: all a call asks of its environment is writes to the output
    stream: whatever the replies, it fetches, stores and erases nothing
    kept outside the process.  Run in any world it therefore leaves the
    persisted state as it was and only adds to the end of the stream. *)
Theorem only_effect_is_output ev :
  only_emits (Tree.process_file ev)
  ∧ ∀ w,
      run (Tree.process_file ev) w = process_file ev w
      ∧ persisted (process_file ev w).2 = persisted w
      ∧ ∃ lines, stdout (process_file ev w).2 = stdout w ++ lines.
Proof.
  split; [apply process_file_only_emits|].
  intros w. split; [apply run_process_file|].
  rewrite <- run_process_file.
  exact (only_emits_writes_only _ (process_file_only_emits ev) w).
Qed.

(** C8: a default stands in for an absent key only, key by key.  A
    "contentType", a "size" or a "timeCreated" that is present is
    printed as it is, whatever its value and whatever the other keys:
    a null size gives [Size: None bytes], not [Size: 0 bytes]. *)
Theorem present_values_are_not_defaulted ev b n out store :
  data ev !! "bucket" = Some b →
  data ev !! "name" = Some n →
  (∀ ct,
     data ev !! "contentType" = Some ct →
     process_file ev (reliable out store)
     = (Normal tt,
        reliable
          (out ++
           [ "Processing file upload:";
             "  Bucket: " +:+ py_str b;
             "  File: " +:+ py_str n;
             "  Content Type: " +:+ py_str ct;
             "  Size: " +:+ py_str (get (data ev) "size" (VInt 0)) +:+ " bytes";
             "  Created: " +:+ py_str (get (data ev) "timeCreated" VNone);
             "Successfully processed file: " +:+ py_str n ])
          store))
  ∧ (∀ sz,
       data ev !! "size" = Some sz →
       process_file ev (reliable out store)
       = (Normal tt,
          reliable
            (out ++
             [ "Processing file upload:";
               "  Bucket: " +:+ py_str b;
               "  File: " +:+ py_str n;
               "  Content Type: "
                 +:+ py_str (get (data ev) "contentType" (VStr "unknown"));
               "  Size: " +:+ py_str sz +:+ " bytes";
               "  Created: " +:+ py_str (get (data ev) "timeCreated" VNone);
               "Successfully processed file: " +:+ py_str n ])
            store))
  ∧ (∀ tc,
       data ev !! "timeCreated" = Some tc →
       process_file ev (reliable out store)
       = (Normal tt,
          reliable
            (out ++
             [ "Processing file upload:";
               "  Bucket: " +:+ py_str b;
               "  File: " +:+ py_str n;
               "  Content Type: "
                 +:+ py_str (get (data ev) "contentType" (VStr "unknown"));
               "  Size: " +:+ py_str (get (data ev) "size" (VInt 0)) +:+ " bytes";
               "  Created: " +:+ py_str tc;
               "Successfully processed file: " +:+ py_str n ])
            store)).
Proof.
  intros Hb Hn.
  rewrite (process_file_reliable ev b n Hb Hn).
  unfold summary_lines, success_line.
  repeat split; intros v Hv; unfold get at 1 2 3; rewrite Hv; reflexivity.
Qed.

Lemma present_values_are_not_defaulted_witness :
  process_file null_size boot
  = (Normal tt,
     reliable
       [ "Processing file upload:";
         "  Bucket: uploads";
         "  File: c.bin";
         "  Content Type: unknown";
         "  Size: None bytes";
         "  Created: None";
         "Successfully processed file: c.bin" ] ∅)
  ∧ process_file null_content_type boot
    = (Normal tt,
       reliable
         [ "Processing file upload:";
           "  Bucket: uploads";
           "  File: c.bin";
           "  Content Type: None";
           "  Size: 0 bytes";
           "  Created: None";
           "Successfully processed file: c.bin" ] ∅).
Proof.
  split.
  - destruct (present_values_are_not_defaulted null_size
                (VStr "uploads") (VStr "c.bin") [] ∅ eq_refl eq_refl)
      as (_ & Hsize & _).
    exact (Hsize VNone eq_refl).
  - destruct (present_values_are_not_defaulted null_content_type
                (VStr "uploads") (VStr "c.bin") [] ∅ eq_refl eq_refl)
      as (Hct & _ & _).
    exact (Hct VNone eq_refl).
Defined.

(** C9: when "bucket" or "name" is missing the call raises with the
    world untouched: no line written, not even the header, and no write
    attempted. *)
Theorem missing_key_raises_before_output ev w :
  data ev !! "bucket" = None ∨ data ev !! "name" = None →
  ∃ key,
    process_file ev w = (Raised (KeyError key), w)
    ∧ emitted w (process_file ev w).2 = [].
Proof.
  intros H. destruct (process_file_missing ev w H) as (key & _ & _ & Hrun).
  exists key. rewrite Hrun. split; [reflexivity|apply emitted_refl].
Qed.

Lemma missing_key_raises_before_output_witness :
  ∃ key,
    process_file scenario_C (World ["earlier"] [Some broken_pipe] ∅)
    = (Raised (KeyError key), World ["earlier"] [Some broken_pipe] ∅)
    ∧ emitted (World ["earlier"] [Some broken_pipe] ∅)
              (process_file scenario_C
                 (World ["earlier"] [Some broken_pipe] ∅)).2 = [].
Proof.
  apply (missing_key_raises_before_output scenario_C
           (World ["earlier"] [Some broken_pipe] ∅)).
  right. reflexivity.
Defined.

(** C10: two notifications that agree on the five keys read by the
    handler are treated alike, in every world: same lines, same end. *)
Theorem other_keys_are_ignored ev1 ev2 w :
  agree_on_fields (data ev1) (data ev2) →
  process_file ev1 w = process_file ev2 w.
Proof.
  unfold agree_on_fields, fields. rewrite !Forall_cons.
  intros (Hb & Hn & Hct & Hsz & Htc & _).
  unfold process_file, getitem, get.
  rewrite Hb, Hn, Hct, Hsz, Htc. reflexivity.
Qed.

Lemma other_keys_are_ignored_witness :
  data scenario_A ≠ data scenario_A_extra
  ∧ process_file scenario_A boot = process_file scenario_A_extra boot.
Proof.
  split.
  - intros H. apply (f_equal (λ d, d !! "generation")) in H. discriminate H.
  - apply (other_keys_are_ignored scenario_A scenario_A_extra boot).
    unfold agree_on_fields, fields. repeat constructor.
Defined.

(** * Further properties of [process_file] *)

Section Runs.
Context (ev : CloudEvent) (b n : value).
Hypothesis Hbucket : data ev !! "bucket" = Some b.
Hypothesis Hname : data ev !! "name" = Some n.

Lemma process_file_cases out script store :
  run_shape (data ev) b n out script store
    (process_file ev (World out script store)).
Proof.
  py_unfold. rewrite Hbucket, Hname. cbn.
  destruct script as [|[e0|] s0]; cbn;
    [rewrite <- ?app_assoc; refine (shape_done _ _ _ _ _ _ 0 _); lia
    |pose proof (shape_cut (data ev) b n out (Some e0 :: s0) store 1 e0 0) as H;
     cbn in H; rewrite app_nil_r in H; apply H; lia|].
  destruct s0 as [|[e1|] s1]; cbn;
    [rewrite <- ?app_assoc; refine (shape_done _ _ _ _ _ _ 1 _); lia
    |rewrite <- ?app_assoc; refine (shape_cut _ _ _ _ _ _ 2 e1 1 _ _); lia|].
  destruct s1 as [|[e2|] s2]; cbn;
    [rewrite <- ?app_assoc; refine (shape_done _ _ _ _ _ _ 2 _); lia
    |rewrite <- ?app_assoc; refine (shape_cut _ _ _ _ _ _ 3 e2 2 _ _); lia|].
  destruct s2 as [|[e3|] s3]; cbn;
    [rewrite <- ?app_assoc; refine (shape_done _ _ _ _ _ _ 3 _); lia
    |rewrite <- ?app_assoc; refine (shape_cut _ _ _ _ _ _ 4 e3 3 _ _); lia|].
  destruct s3 as [|[e4|] s4]; cbn;
    [rewrite <- ?app_assoc; refine (shape_done _ _ _ _ _ _ 4 _); lia
    |rewrite <- ?app_assoc; refine (shape_cut _ _ _ _ _ _ 5 e4 4 _ _); lia|].
  destruct s4 as [|[e5|] s5]; cbn;
    [rewrite <- ?app_assoc; refine (shape_done _ _ _ _ _ _ 5 _); lia
    |rewrite <- ?app_assoc; refine (shape_cut _ _ _ _ _ _ 6 e5 5 _ _); lia|].
  destruct s5 as [|[e6|] s6]; cbn;
    [rewrite <- ?app_assoc; refine (shape_done _ _ _ _ _ _ 6 _); lia
    |
    |rewrite <- ?app_assoc; refine (shape_done _ _ _ _ _ _ 7 _); lia].
  destruct (is_Exception e6) eqn:He6; cbn;
    [|rewrite <- ?app_assoc; refine (shape_cut _ _ _ _ _ _ 7 e6 6 _ _); lia].
  destruct s6 as [|[e7|] s7]; cbn; rewrite <- ?app_assoc.
  - refine (shape_logged _ _ _ _ _ _ 7 e6 _ _); [lia|done].
  - refine (shape_cut _ _ _ _ _ _ 8 e7 6 _ _); lia.
  - refine (shape_logged _ _ _ _ _ _ 8 e6 _ _); [lia|done].
Qed.
End Runs.

(** X1: on a stream that accepts writes, how a call ends is decided by
    which required keys are present: it returns exactly when both are;
    it raises [KeyError] for "bucket" exactly when "bucket" is missing,
    also when "name" is missing too; and for "name" exactly when only
    "name" is missing. *)
Theorem outcome_by_presence ev out store :
  ((process_file ev (reliable out store)).1 = Normal tt
   ↔ is_Some (data ev !! "bucket") ∧ is_Some (data ev !! "name"))
  ∧ ((process_file ev (reliable out store)).1 = Raised (KeyError "bucket")
     ↔ data ev !! "bucket" = None)
  ∧ ((process_file ev (reliable out store)).1 = Raised (KeyError "name")
     ↔ is_Some (data ev !! "bucket") ∧ data ev !! "name" = None).
Proof.
  destruct (data ev !! "bucket") as [b|] eqn:Hb.
  - destruct (data ev !! "name") as [n|] eqn:Hn.
    + rewrite (process_file_reliable ev b n Hb Hn). cbn.
      repeat split; try done; try (intros [_ ?]; done); eauto.
    + rewrite (process_file_no_name ev b _ Hb Hn). cbn.
      repeat split; try done; eauto.
      intros [_ [? ?]]; done.
  - rewrite (process_file_no_bucket ev _ Hb). cbn.
    repeat split; try done.
    + intros [[? ?] _]; done.
    + intros [[? ?] _]; done.
Qed.

(** X2: an exception that is not an [Exception] (a [KeyboardInterrupt])
    raised by the write of the success line passes the [except
    Exception] clause: it leaves the handler after the six summary lines,
    with no error line and no further write attempted. *)
Theorem non_Exception_is_not_logged ev b n out store e rest :
  data ev !! "bucket" = Some b →
  data ev !! "name" = Some n →
  is_Exception e = false →
  process_file ev (World out (replicate 6 None ++ Some e :: rest) store)
  = (Raised e, World (out ++ summary_lines (data ev) b n) rest store).
Proof.
  intros Hb Hn He. py_unfold. rewrite Hb, Hn. cbn. rewrite He.
  rewrite <- !app_assoc. reflexivity.
Qed.

Lemma non_Exception_is_not_logged_witness :
  process_file scenario_A
    (World [] [None; None; None; None; None; None; Some KeyboardInterrupt;
               Some broken_pipe] ∅)
  = (Raised KeyboardInterrupt,
     World [ "Processing file upload:"; "  Bucket: uploads"; "  File: a.txt";
             "  Content Type: text/plain"; "  Size: 120 bytes";
             "  Created: 2024-01-01T00:00:00Z" ] [Some broken_pipe] ∅).
Proof.
  exact (non_Exception_is_not_logged scenario_A (VStr "uploads") (VStr "a.txt")
           [] ∅ KeyboardInterrupt [Some broken_pipe] eq_refl eq_refl eq_refl).
Defined.

(** X3: when the write of the success line raises an [Exception] and
    the write of the error line raises too, the second exception is the
    one that reaches the caller; the first is not raised again and no
    error line is written. *)
Theorem failed_error_line_replaces_error ev b n out store e1 e2 rest :
  data ev !! "bucket" = Some b →
  data ev !! "name" = Some n →
  is_Exception e1 = true →
  process_file ev
    (World out (replicate 6 None ++ Some e1 :: Some e2 :: rest) store)
  = (Raised e2, World (out ++ summary_lines (data ev) b n) rest store).
Proof.
  intros Hb Hn He. py_unfold. rewrite Hb, Hn. cbn. rewrite He. cbn.
  rewrite <- !app_assoc. reflexivity.
Qed.

Lemma failed_error_line_replaces_error_witness :
  process_file scenario_A
    (World [] [None; None; None; None; None; None; Some (OSError 5 "Input/output error");
               Some broken_pipe] ∅)
  = (Raised broken_pipe,
     World [ "Processing file upload:"; "  Bucket: uploads"; "  File: a.txt";
             "  Content Type: text/plain"; "  Size: 120 bytes";
             "  Created: 2024-01-01T00:00:00Z" ] [] ∅).
Proof.
  exact (failed_error_line_replaces_error scenario_A
           (VStr "uploads") (VStr "a.txt") [] ∅
           (OSError 5 "Input/output error") broken_pipe []
           eq_refl eq_refl eq_refl).
Defined.

(** X6: one call makes at most eight [print] calls, for every
    notification and whatever the calls do. *)
Theorem print_calls_are_bounded ev w :
  ∃ k : nat, (k ≤ 8)%nat ∧ faults (process_file ev w).2 = drop k (faults w).
Proof.
  destruct (data ev !! "bucket") as [b|] eqn:Hb;
    [destruct (data ev !! "name") as [n|] eqn:Hn|].
  - destruct w as [out script store].
    pose proof (process_file_cases ev b n Hb Hn out script store) as Hrun.
    remember (process_file ev (World out script store)) as res eqn:Hres.
    clear Hres.
    destruct Hrun as [k Hk|k e i Hk Hi|k e Hk He]; by exists k.
  - rewrite (process_file_no_name ev b w Hb Hn). exists 0. split; [lia|done].
  - rewrite (process_file_no_bucket ev w Hb). exists 0. split; [lia|done].
Qed.

Lemma ret_bind {A B} (a : A) (k : A → Py B) : (ret a ≫= k) = k a.
Proof. reflexivity. Qed.

(** X7: values enter the output through their [str()] text only.  Two
    notifications whose values under the five keys are present under
    the same keys and read alike, such as a size given as the integer
    120 and as the string "120", are treated alike in every world. *)
Theorem rendering_is_type_blind ev1 ev2 w :
  same_text (data ev1) (data ev2) →
  process_file ev1 w = process_file ev2 w.
Proof.
  unfold same_text, fields. rewrite !Forall_cons.
  intros (Hb & Hn & Hct & Hsz & Htc & _).
  unfold process_file, getitem, get.
  destruct (data ev1 !! "bucket") as [b1|], (data ev2 !! "bucket") as [b2|];
    try discriminate Hb; [|reflexivity].
  destruct (data ev1 !! "name") as [n1|], (data ev2 !! "name") as [n2|];
    try discriminate Hn; [|reflexivity].
  destruct (data ev1 !! "contentType") as [c1|],
           (data ev2 !! "contentType") as [c2|]; try discriminate Hct;
  destruct (data ev1 !! "size") as [s1|],
           (data ev2 !! "size") as [s2|]; try discriminate Hsz;
  destruct (data ev1 !! "timeCreated") as [t1|],
           (data ev2 !! "timeCreated") as [t2|]; try discriminate Htc;
  cbn in *; simplify_eq; rewrite !ret_bind;
  repeat match goal with
         | H : py_str _ = py_str _ |- _ => rewrite H; clear H
         end;
  reflexivity.
Qed.

Lemma rendering_is_type_blind_witness :
  data scenario_A !! "size" ≠ data scenario_A_text !! "size"
  ∧ process_file scenario_A boot = process_file scenario_A_text boot.
Proof.
  split; [discriminate|].
  apply (rendering_is_type_blind scenario_A scenario_A_text boot).
  unfold same_text, fields. repeat constructor.
Defined.

(** X8: a default leaves no trace.  Writing into the payload the value
    each optional lookup yields, the stored one or else "unknown", 0 and
    None, changes nothing in what the call writes or how it ends. *)
Theorem defaults_leave_no_trace ev w :
  process_file {| data := with_defaults (data ev) |} w = process_file ev w.
Proof.
  unfold process_file, getitem, with_defaults. cbn [data].
  assert (Hget : ∀ key dflt,
            get (<["contentType" := get (data ev) "contentType" (VStr "unknown")]>
                 (<["size" := get (data ev) "size" (VInt 0)]>
                  (<["timeCreated" := get (data ev) "timeCreated" VNone]>
                   (data ev)))) key dflt
            = if decide (key = "contentType")
              then get (data ev) "contentType" (VStr "unknown")
              else if decide (key = "size")
              then get (data ev) "size" (VInt 0)
              else if decide (key = "timeCreated")
              then get (data ev) "timeCreated" VNone
              else get (data ev) key dflt).
  { intros key dflt. unfold get at 1.
    repeat (rewrite lookup_insert; case_decide; simplify_eq;
            [repeat case_decide; try done|]).
    repeat case_decide; done. }
  rewrite !Hget. cbn.
  rewrite !lookup_insert_ne by done. reflexivity.
Qed.
